(** * map-router: the route planner, the VRP solver wrapper and the
      distance endpoint

    A shallow embedding of [api/algorithm.py] and of the distance endpoint
    of [api/index.py].  Python values are an inductive type, exceptions are
    a result type, and the effects the program has (printing, calling the
    Google Distance Matrix SDK, calling OR-Tools) are recorded in a trace.
    The third-party libraries are not part of the repository: they are the
    variables of the section [Program]. *)

From Stdlib Require Import List String Ascii ZArith Bool Lia DecimalString.
Import ListNotations.
Open Scope string_scope.

Set Warnings "-register-all".

(** ** Python values *)

(** The values that flow through the program: addresses and API keys,
    capacities, the JSON answer of the distance SDK, the arguments of
    [VRPSolver].  A dict keeps its items in insertion order. *)
Inductive pyval : Type :=
| VNone
| VBool (b : bool)
| VInt (z : Z)
| VStr (s : string)
| VList (items : list pyval)
| VDict (items : list (string * pyval)).

(** Truth value of an object ([if capacity ...], [if not self.origins]). *)
Definition truthy (v : pyval) : bool :=
  match v with
  | VNone => false
  | VBool b => b
  | VInt z => negb (Z.eqb z 0)
  | VStr s => negb (String.eqb s "")
  | VList l => match l with [] => false | _ => true end
  | VDict d => match d with [] => false | _ => true end
  end.

(** [v == "literal"]: only a string can be equal to a string literal. *)
Definition eq_str (v : pyval) (lit : string) : bool :=
  match v with
  | VStr s => String.eqb s lit
  | _ => false
  end.

Definition type_name (v : pyval) : string :=
  match v with
  | VNone => "NoneType"
  | VBool _ => "bool"
  | VInt _ => "int"
  | VStr _ => "str"
  | VList _ => "list"
  | VDict _ => "dict"
  end.

(** ** Exceptions and results *)

(** Every exception the program raises or meets is an instance of
    [Exception], so [except Exception] catches each of them.
    [ExternalError] stands for the exception classes of googlemaps and
    OR-Tools (ApiError, Timeout, ...).  The texts of the errors the
    interpreter itself raises are those of CPython 3.10 and later. *)
Inductive exn : Type :=
| ValueError (msg : string)
| TypeError (msg : string)
| KeyError (key : pyval)
| IndexError (msg : string)
| Exception (msg : string)
| ExternalError (cls msg : string).

Inductive result (A : Type) : Type :=
| Ok (a : A)
| Raise (e : exn).
Arguments Ok {A} a.
Arguments Raise {A} e.

(** ** Effects *)

(** What [RoutingIndexManager(...)] was called with. *)
Record manager_args : Type := {
  ma_num_nodes : nat;
  ma_num_vehicles : pyval;
  ma_depot : pyval
}.

(** What the routing model holds when [SolveWithParameters] is called:
    the manager's arguments, the matrix the arc-cost callback reads, the
    constant demand of the unary callback and the capacity dimension. *)
Record routing_model : Type := {
  rm_manager : manager_args;
  rm_arc_cost_matrix : pyval;
  rm_demand : Z;
  rm_capacity_slack : Z;
  rm_vehicle_capacities : pyval;
  rm_start_cumul_to_zero : bool
}.

Inductive event : Type :=
| Print (line : string)
| GoogleMapsClientCall (key : pyval)
| DistanceMatrixCall (origins destinations : list pyval)
| RoutingManagerCall (args : manager_args)
| RoutingSolveCall (model : routing_model).

Definition trace : Type := list event.

(** A computation: the events it caused, in order, and how it ended. *)
Definition M (A : Type) : Type := (trace * result A)%type.

Class Monad (m : Type -> Type) : Type := {
  ret : forall {A}, A -> m A;
  bind : forall {A B}, m A -> (A -> m B) -> m B
}.

#[global] Instance result_Monad : Monad result := {|
  ret := fun A a => Ok a;
  bind := fun A B r k => match r with Ok a => k a | Raise e => Raise e end
|}.

#[global] Instance M_Monad : Monad M := {|
  ret := fun A a => ([], Ok a);
  bind := fun A B m k =>
    match m with
    | (t, Ok a) => let (t', r) := k a in ((t ++ t')%list, r)
    | (t, Raise e) => (t, Raise e)
    end
|}.

Notation "x <- c ;; k" := (bind c (fun x => k))
  (at level 61, c at next level, right associativity).
Notation "c ;;; k" := (bind c (fun _ => k))
  (at level 61, right associativity).

Definition lift {A} (r : result A) : M A := ([], r).
Definition raise {A} (e : exn) : M A := ([], Raise e).
Definition emit (ev : event) : M unit := ([ev], Ok tt).

(** [try: body / except Exception as e: handler(e)]. *)
Definition try_except {A} (body : M A) (handler : exn -> M A) : M A :=
  match body with
  | (t, Raise e) => let (t', r) := handler e in ((t ++ t')%list, r)
  | done => done
  end.

Definition events {A} (m : M A) : trace := fst m.
Definition outcome {A} (m : M A) : result A := snd m.

(** ** Subscripting, len *)

Fixpoint dict_get (d : list (string * pyval)) (key : string) : option pyval :=
  match d with
  | [] => None
  | (k, v) :: rest => if String.eqb k key then Some v else dict_get rest key
  end.

(** [v[key]] with a string key. *)
Definition getitem_key (v : pyval) (key : string) : result pyval :=
  match v with
  | VDict d =>
      match dict_get d key with
      | Some x => Ok x
      | None => Raise (KeyError (VStr key))
      end
  | VList _ => Raise (TypeError "list indices must be integers or slices, not str")
  | VStr _ => Raise (TypeError "string indices must be integers, not 'str'")
  | _ => Raise (TypeError ("'" ++ type_name v ++ "' object is not subscriptable"))
  end.

(** [v[i]] with a non-negative integer index. *)
Definition getitem_idx (v : pyval) (i : nat) : result pyval :=
  match v with
  | VList l =>
      match nth_error l i with
      | Some x => Ok x
      | None => Raise (IndexError "list index out of range")
      end
  | VStr s =>
      match String.get i s with
      | Some c => Ok (VStr (String c EmptyString))
      | None => Raise (IndexError "string index out of range")
      end
  | VDict _ => Raise (KeyError (VInt (Z.of_nat i)))
  | _ => Raise (TypeError ("'" ++ type_name v ++ "' object is not subscriptable"))
  end.

Definition py_len (v : pyval) : result nat :=
  match v with
  | VStr s => Ok (String.length s)
  | VList l => Ok (List.length l)
  | VDict d => Ok (List.length d)
  | _ => Raise (TypeError ("object of type '" ++ type_name v ++ "' has no len()"))
  end.

Definition string_of_nat (n : nat) : string :=
  NilZero.string_of_uint (Nat.to_uint n).

Definition nl : string := String (ascii_of_nat 10) EmptyString.

(** ** The program *)

Section Program.

(** *** The libraries the program calls *)

(** [repr] of the interpreter. *)
Variable py_repr : pyval -> string.

(** [googlemaps.Client(key=...)]: [Some e] when the constructor raises. *)
Variable GoogleMapsClient : pyval -> option exn.

(** [googlemaps.distance_matrix.distance_matrix(client, origins,
    destinations, mode="driving")], for the client built from a key. *)
Variable gmaps_distance_matrix : pyval -> list pyval -> list pyval -> result pyval.

(** A solution of OR-Tools as [print_solution] reads it.  [sol_path v] is
    the chain of indices from [routing.Start(v)] along
    [solution.Value(routing.NextVar(index))], up to and without the first
    index with [routing.IsEnd]; that index is [sol_end v]. *)
Record routing_solution : Type := {
  sol_path : nat -> list Z;
  sol_end : nat -> Z;
  IndexToNode : Z -> Z;
  GetArcCostForVehicle : Z -> Z -> nat -> Z
}.

(** [pywrapcp.RoutingIndexManager(num_nodes, num_vehicles, depot)]:
    [Some e] when the binding rejects its arguments. *)
Variable RoutingIndexManager : manager_args -> option exn.

(** [routing.SolveWithParameters(search_parameters)] with the first
    solution strategy PATH_CHEAPEST_ARC: [Ok None] when no solution is
    found. *)
Variable SolveWithParameters : routing_model -> result (option routing_solution).

(** [str(v)], and what an f-string or [format] puts for [{}]. *)
Definition py_str (v : pyval) : string :=
  match v with
  | VStr s => s
  | _ => py_repr v
  end.

(** [str(e)] for a caught exception. *)
Definition exn_str (e : exn) : string :=
  match e with
  | ValueError msg => msg
  | TypeError msg => msg
  | KeyError key => py_repr key
  | IndexError msg => msg
  | Exception msg => msg
  | ExternalError _ msg => msg
  end.

(** *** class Person *)

Record Person : Type := {
  name : pyval;
  address : pyval;
  is_driving : bool;
  is_destination : bool;
  capacity : pyval
}.

Definition Person_init (name address capacity : pyval)
    (is_driving is_destination : bool) : result Person :=
  if truthy capacity && negb is_driving
  then Raise (ValueError "Non-driving persons cannot have a capacity.")
  else Ok {| name := name; address := address; is_driving := is_driving;
             is_destination := is_destination; capacity := capacity |}.

(** *** class GoogleDistanceMatrixClient *)

Record GoogleDistanceMatrixClient : Type := {
  client : pyval;
  origins : list pyval;
  destination : list pyval
}.

Definition GoogleDistanceMatrixClient_init (api_key : pyval)
    : M GoogleDistanceMatrixClient :=
  emit (GoogleMapsClientCall api_key) ;;;
  match GoogleMapsClient api_key with
  | Some e => raise e
  | None => ret {| client := api_key; origins := []; destination := [] |}
  end.

Definition add_origin (self : GoogleDistanceMatrixClient) (origin : pyval)
    : GoogleDistanceMatrixClient :=
  {| client := client self;
     origins := (origins self ++ [origin])%list;
     destination := destination self |}.

Definition set_destination (self : GoogleDistanceMatrixClient) (dest : pyval)
    : GoogleDistanceMatrixClient :=
  {| client := client self;
     origins := origins self;
     destination := (destination self ++ [dest])%list |}.

(** The line appended to [results] for one origin. *)
Definition result_line (origin : pyval) (dest : list pyval)
    (distance duration : pyval) : string :=
  "From " ++ py_str origin ++ " to " ++ py_str (VList dest) ++ ": "
    ++ py_str distance ++ ", " ++ py_str duration.

(** [row["elements"][0][field]["text"]]. *)
Definition element_text (row : pyval) (field : string) : result pyval :=
  elements <- getitem_key row "elements" ;;
  first <- getitem_idx elements 0 ;;
  entry <- getitem_key first field ;;
  getitem_key entry "text".

(** The loop [for origin_index, origin in enumerate(self.origins)], from
    index [origin_index] on. *)
Fixpoint collect_results (response : pyval) (dest : list pyval)
    (origin_index : nat) (todo : list pyval) : result (list string) :=
  match todo with
  | [] => Ok []
  | origin :: rest =>
      rows <- getitem_key response "rows" ;;
      row <- getitem_idx rows origin_index ;;
      distance <- element_text row "distance" ;;
      duration <- element_text row "duration" ;;
      more <- collect_results response dest (S origin_index) rest ;;
      Ok (result_line origin dest distance duration :: more)
  end.

Definition fetch_distance_matrix (self : GoogleDistanceMatrixClient)
    : M (list string) :=
  if negb (truthy (VList (origins self)))
     || negb (truthy (VList (destination self)))
  then raise (ValueError
    "Origins and destination must be set before fetching the distance matrix.")
  else
    emit (DistanceMatrixCall (origins self) (destination self)) ;;;
    response <- lift (gmaps_distance_matrix (client self) (origins self)
                        (destination self)) ;;
    status <- lift (getitem_key response "status") ;;
    if eq_str status "OK"
    then lift (collect_results response (destination self) 0 (origins self))
    else raise (Exception ("Error fetching distance matrix: " ++ py_str status)).

(** *** class VRPSolver *)

Record VRPSolver : Type := {
  distance_matrix : pyval;
  vehicle_capacities : pyval;
  data : list (string * pyval);
  manager : option manager_args;
  routing : option routing_model;
  solution : option routing_solution
}.

Definition VRPSolver_init (distance_matrix vehicle_capacities : pyval)
    : VRPSolver :=
  {| distance_matrix := distance_matrix;
     vehicle_capacities := vehicle_capacities;
     data := [("distance_matrix", distance_matrix);
              ("vehicle_capacities", vehicle_capacities);
              ("depot", VInt 0)];
     manager := None;
     routing := None;
     solution := None |}.

(** The call [VRPSolver(a1, ..., an)] with positional arguments: [__init__]
    takes [distance_matrix] and [vehicle_capacities] besides [self]. *)
Definition VRPSolver_call (args : list pyval) : result VRPSolver :=
  match args with
  | [] => Raise (TypeError
      "VRPSolver.__init__() missing 2 required positional arguments: 'distance_matrix' and 'vehicle_capacities'")
  | [_] => Raise (TypeError
      "VRPSolver.__init__() missing 1 required positional argument: 'vehicle_capacities'")
  | [dm; caps] => Ok (VRPSolver_init dm caps)
  | _ => Raise (TypeError
      ("VRPSolver.__init__() takes 3 positional arguments but "
         ++ string_of_nat (S (List.length args)) ++ " were given"))
  end.

(** [self.data[key]]. *)
Definition data_item (self : VRPSolver) (key : string) : result pyval :=
  getitem_key (VDict (data self)) key.

(** [range(v)]. *)
Definition py_range (v : pyval) : result (list nat) :=
  match v with
  | VInt z => Ok (seq 0 (Z.to_nat z))
  | VBool b => Ok (seq 0 (if b then 1 else 0))
  | _ => Raise (TypeError
      ("'" ++ type_name v ++ "' object cannot be interpreted as an integer"))
  end.

(** The [while not self.routing.IsEnd(index)] loop of one vehicle: the
    text added to [plan_output] and the distance added up. *)
Fixpoint walk_route (sol : routing_solution) (vehicle_id : nat)
    (path : list Z) (last : Z) : string * Z :=
  match path with
  | [] => ("", 0%Z)
  | index :: rest =>
      let next := match rest with [] => last | n :: _ => n end in
      let (out, dist) := walk_route sol vehicle_id rest last in
      (" " ++ py_str (VInt (IndexToNode sol index)) ++ " -> " ++ out,
       (GetArcCostForVehicle sol index next vehicle_id + dist)%Z)
  end.

Definition plan_output (sol : routing_solution) (vehicle_id : nat)
    : string * Z :=
  let (out, route_distance) :=
    walk_route sol vehicle_id (sol_path sol vehicle_id) (sol_end sol vehicle_id) in
  ("Route for vehicle " ++ py_str (VInt (Z.of_nat vehicle_id)) ++ ":" ++ nl
     ++ out
     ++ py_str (VInt (IndexToNode sol (sol_end sol vehicle_id))) ++ nl
     ++ "Distance of the route: " ++ py_str (VInt route_distance) ++ "m" ++ nl,
   route_distance).

(** The [for vehicle_id in range(...)] loop: prints each route, returns
    the total distance. *)
Fixpoint print_routes (sol : routing_solution) (vehicle_ids : list nat)
    (total_distance : Z) : M Z :=
  match vehicle_ids with
  | [] => ret total_distance
  | vehicle_id :: rest =>
      let (text, route_distance) := plan_output sol vehicle_id in
      emit (Print text) ;;;
      print_routes sol rest (total_distance + route_distance)%Z
  end.

Definition print_solution (self : VRPSolver) (sol : routing_solution)
    : M unit :=
  num_vehicles <- lift (data_item self "num_vehicles") ;;
  vehicle_ids <- lift (py_range num_vehicles) ;;
  total_distance <- print_routes sol vehicle_ids 0%Z ;;
  emit (Print ("Total Distance of all routes: "
                 ++ py_str (VInt total_distance) ++ "m")).

(** [solve]: the arguments of [RoutingIndexManager] are evaluated from
    left to right, then the manager, the model and its callbacks are
    built, then the solver runs.  The result is [self] as [solve] leaves
    it. *)
Definition solve (self : VRPSolver) : M VRPSolver :=
  dm <- lift (data_item self "distance_matrix") ;;
  num_nodes <- lift (py_len dm) ;;
  num_vehicles <- lift (data_item self "num_vehicles") ;;
  depot <- lift (data_item self "depot") ;;
  let args := {| ma_num_nodes := num_nodes;
                 ma_num_vehicles := num_vehicles;
                 ma_depot := depot |} in
  emit (RoutingManagerCall args) ;;;
  match RoutingIndexManager args with
  | Some e => raise e
  | None =>
      capacities <- lift (data_item self "vehicle_capacities") ;;
      let model := {| rm_manager := args;
                      rm_arc_cost_matrix := dm;
                      rm_demand := 1;
                      rm_capacity_slack := 0;
                      rm_vehicle_capacities := capacities;
                      rm_start_cumul_to_zero := true |} in
      emit (RoutingSolveCall model) ;;;
      found <- lift (SolveWithParameters model) ;;
      let self' := {| distance_matrix := distance_matrix self;
                      vehicle_capacities := vehicle_capacities self;
                      data := data self;
                      manager := Some args;
                      routing := Some model;
                      solution := found |} in
      match found with
      | Some sol => print_solution self' sol ;;; ret self'
      | None => ret self'
      end
  end.

(** *** class RoutePlanner *)

Record RoutePlanner : Type := {
  persons : list Person;
  api_key : pyval;
  destinations : list pyval;
  drivers : list Person;
  passengers : list Person
}.

Definition RoutePlanner_init (persons : list Person) (api_key : pyval)
    : RoutePlanner :=
  {| persons := persons;
     api_key := api_key;
     destinations := map address (filter is_destination persons);
     drivers :=
       filter (fun p => is_driving p && negb (is_destination p)) persons;
     passengers :=
       filter (fun p => negb (is_driving p) && negb (is_destination p))
              persons |}.

(** The client of [plan_routes] once the origins and the destinations
    are added. *)
Definition loaded_client (self : RoutePlanner)
    (fresh : GoogleDistanceMatrixClient) : GoogleDistanceMatrixClient :=
  fold_left set_destination (destinations self)
    (fold_left (fun c driver => add_origin c (address driver))
               (drivers self) fresh).

Definition plan_routes (self : RoutePlanner) : M unit :=
  if negb (truthy (VList (destinations self)))
  then raise (ValueError "At least one destination is required.")
  else if match drivers self with [] => true | _ => false end
  then raise (ValueError "At least one driver is required.")
  else
    fresh <- GoogleDistanceMatrixClient_init (api_key self) ;;
    let google_distance_client := loaded_client self fresh in
    try_except
      (dist_matrix <- fetch_distance_matrix google_distance_client ;;
       let capacities := map capacity (drivers self) in
       vrp_solver <- lift (VRPSolver_call
                             [VList (map VStr dist_matrix);
                              VInt (Z.of_nat (List.length (drivers self)));
                              VList capacities]) ;;
       solve vrp_solver ;;;
       ret tt)
      (fun e => emit (Print ("An error occurred: " ++ exn_str e))).

(** *** index.py: POST /api/distance/ *)

(** The handler [fetch_distance_matrix(origins, destination)] of
    [index.py].  [google_client] is the module-level client: the handler
    gets its current state and leaves the new one. *)
Definition endpoint_fetch_distance_matrix
    (google_client : GoogleDistanceMatrixClient)
    (request_origins : list pyval) (request_destination : pyval)
    : M pyval * GoogleDistanceMatrixClient :=
  let google_client' :=
    set_destination (fold_left add_origin request_origins google_client)
                    request_destination in
  (try_except
     (results <- fetch_distance_matrix google_client' ;;
      ret (VList (map VStr results)))
     (fun e => ret (VDict [("error", VStr (exn_str e))])),
   google_client').

(** The module-level client after [k] requests with the same arguments. *)
Fixpoint after_requests (k : nat) (google_client : GoogleDistanceMatrixClient)
    (request_origins : list pyval) (request_destination : pyval)
    : GoogleDistanceMatrixClient :=
  match k with
  | O => google_client
  | S k' =>
      after_requests k'
        (snd (endpoint_fetch_distance_matrix google_client request_origins
                request_destination))
        request_origins request_destination
  end.

(** *** algorithm.py run as a script *)

(** How the script ends: it runs to its last line, or an exception nobody
    catches stops it.  [NameError] and [AttributeError] are the two the
    interpreter raises for a name that was never bound and for an
    attribute the object does not have. *)
Inductive script_end : Type :=
| Finished
| Uncaught (e : exn)
| UncaughtNameError (name : string)
| UncaughtAttributeError (cls attr : string).

Definition main_origins : list pyval :=
  [VStr "1600 Amphitheatre Parkway, Mountain View, CA";
   VStr "555 California St, San Francisco, CA";
   VStr "1 World Way, Los Angeles, CA";
   VStr "2001 Point West Way, Sacramento, CA"].

Definition main_destination : pyval := VStr "1 Infinite Loop, Cupertino, CA".

(** [for result in dist_matrix: print(result)]. *)
Fixpoint print_all (lines : list string) : M unit :=
  match lines with
  | [] => ret tt
  | line :: rest => emit (Print line) ;;; print_all rest
  end.

(** The block under [if __name__ == "__main__"], for the value of the
    environment variable GOOGLE_MAPS_API_KEY.  The [try] leaves
    [dist_matrix] bound ([Some]) only when the fetch returned.  The class
    [VRPSolver] defines [__init__], [solve] and [print_solution] and no
    [set_driver]. *)
Definition main (env_key : pyval) : trace * script_end :=
  match GoogleDistanceMatrixClient_init env_key with
  | (t0, Raise e) => (t0, Uncaught e)
  | (t0, Ok fresh) =>
      let google_distance_client :=
        set_destination (fold_left add_origin main_origins fresh)
                        main_destination in
      match try_except
              (dist_matrix <- fetch_distance_matrix google_distance_client ;;
               print_all dist_matrix ;;;
               ret (Some dist_matrix))
              (fun e =>
                 emit (Print ("An error occurred: " ++ exn_str e)) ;;;
                 ret None)
      with
      | (t1, Raise e) => ((t0 ++ t1)%list, Uncaught e)
      | (t1, Ok None) => ((t0 ++ t1)%list, UncaughtNameError "dist_matrix")
      | (t1, Ok (Some dist_matrix)) =>
          match VRPSolver_call [VList (map VStr dist_matrix);
                                VList [VInt 5; VInt 5]] with
          | Raise e => ((t0 ++ t1)%list, Uncaught e)
          | Ok vrp_solver =>
              ((t0 ++ t1)%list, UncaughtAttributeError "VRPSolver" "set_driver")
          end
      end
  end.

(** *** supabase_client.py and index.py: GET /api/user/{email} *)

(** The query [self.supabase.table("users").select("*").eq("email",
    email).execute()] of the Supabase library, read at [.data]. *)
Variable supabase_select_user : string -> result pyval.

(** [SupabaseClient.get_user]. *)
Definition SupabaseClient_get_user (email : string) : result pyval :=
  supabase_select_user email.

(** The handler [get_user(email)] of [index.py]. *)
Definition endpoint_get_user (email : string) : result pyval :=
  user <- SupabaseClient_get_user email ;;
  if truthy user
  then Ok user
  else Ok (VDict [("error", VStr "User not found")]).

End Program.

(** ** Concrete libraries and inputs

    Instances of the section's variables for evaluating the program, and a
    few persons. *)

(** [repr] for the values met below: right for strings without quotes,
    backslashes or control characters. *)
Fixpoint repr_plain (v : pyval) : string :=
  match v with
  | VNone => "None"
  | VBool true => "True"
  | VBool false => "False"
  | VInt z => NilZero.string_of_int (Z.to_int z)
  | VStr s => "'" ++ s ++ "'"
  | VList l =>
      "[" ++ (fix items (l : list pyval) : string :=
                match l with
                | [] => ""
                | x :: rest =>
                    match rest with
                    | [] => repr_plain x
                    | _ => repr_plain x ++ ", " ++ items rest
                    end
                end) l ++ "]"
  | VDict d =>
      "{" ++ (fix items (d : list (string * pyval)) : string :=
                match d with
                | [] => ""
                | (k, x) :: rest =>
                    match rest with
                    | [] => "'" ++ k ++ "': " ++ repr_plain x
                    | _ => "'" ++ k ++ "': " ++ repr_plain x ++ ", " ++ items rest
                    end
                end) d ++ "}"
  end.

(** A maps client that accepts every key. *)
Definition client_accepts : pyval -> option exn := fun _ => None.

(** One row of an OK answer: 1 km, 2 mins. *)
Definition row_1km : pyval :=
  VDict [("elements",
          VList [VDict [("distance", VDict [("text", VStr "1 km");
                                            ("value", VInt 1000)]);
                        ("duration", VDict [("text", VStr "2 mins");
                                            ("value", VInt 120)]);
                        ("status", VStr "OK")]])].

(** A distance service that answers OK, one row per origin. *)
Definition gmaps_ok : pyval -> list pyval -> list pyval -> result pyval :=
  fun _ origins _ =>
    Ok (VDict [("rows", VList (map (fun _ => row_1km) origins));
               ("status", VStr "OK")]).

(** A distance service that refuses the request. *)
Definition gmaps_denied : pyval -> list pyval -> list pyval -> result pyval :=
  fun _ _ _ => Raise (ExternalError "ApiError" "REQUEST_DENIED").

Definition manager_accepts : manager_args -> option exn := fun _ => None.

Definition solver_finds_nothing
    : routing_model -> result (option routing_solution) :=
  fun _ => Ok None.

Definition ann : Person :=
  {| name := VStr "Ann"; address := VStr "A"; is_driving := true;
     is_destination := false; capacity := VInt 1 |}.

Definition bob : Person :=
  {| name := VStr "Bob"; address := VStr "B"; is_driving := false;
     is_destination := false; capacity := VNone |}.

Definition cid : Person :=
  {| name := VStr "Cid"; address := VStr "C"; is_driving := false;
     is_destination := false; capacity := VNone |}.

Definition office : Person :=
  {| name := VStr "Office"; address := VStr "Z"; is_driving := false;
     is_destination := true; capacity := VNone |}.

Definition key0 : pyval := VStr "AIza-key".

(** A distance service whose answer has a single row, whatever is asked. *)
Definition gmaps_one_row : pyval -> list pyval -> list pyval -> result pyval :=
  fun _ _ _ =>
    Ok (VDict [("rows", VList [row_1km]); ("status", VStr "OK")]).

(** A distance service that answers with a status other than OK. *)
Definition gmaps_invalid : pyval -> list pyval -> list pyval -> result pyval :=
  fun _ _ _ => Ok (VDict [("rows", VList []); ("status", VStr "INVALID_REQUEST")]).

(** A manager that rejects its arguments. *)
Definition manager_rejects : manager_args -> option exn :=
  fun _ => Some (ExternalError "TypeError" "Wrong number or type of arguments").


(** A solver object whose data was completed by hand with the number of
    vehicles. *)
Definition completed_solver : VRPSolver :=
  {| distance_matrix := VList [VList []; VList []; VList []];
     vehicle_capacities := VList [VInt 1; VInt 1];
     data := [("distance_matrix", VList [VList []; VList []; VList []]);
              ("vehicle_capacities", VList [VInt 1; VInt 1]);
              ("depot", VInt 0);
              ("num_vehicles", VInt 2)];
     manager := None; routing := None; solution := None |}.

(** ** What a numeric distance matrix is *)

Definition nonneg_number (v : pyval) : bool :=
  match v with
  | VInt z => (0 <=? z)%Z
  | _ => false
  end.

(** A list of [n] rows, each a list of [n] non-negative numbers. *)
Definition is_square_nonneg_matrix (v : pyval) : bool :=
  match v with
  | VList rows =>
      forallb (fun row =>
                 match row with
                 | VList cells =>
                     (List.length cells =? List.length rows)%nat
                       && forallb nonneg_number cells
                 | _ => false
                 end) rows
  | _ => false
  end.

(** [sum(capacities)], when every capacity is an integer. *)
Fixpoint sum_capacities (caps : list pyval) : option Z :=
  match caps with
  | [] => Some 0%Z
  | VInt z :: rest => option_map (Z.add z) (sum_capacities rest)
  | _ :: _ => None
  end.

(** Whether an event is a call into OR-Tools. *)
Definition is_routing_event (ev : event) : bool :=
  match ev with
  | RoutingManagerCall _ | RoutingSolveCall _ => true
  | _ => false
  end.

(** What the interpreter raises for [VRPSolver(a, b, c)]. *)
Definition arity_error : exn :=
  TypeError "VRPSolver.__init__() takes 3 positional arguments but 4 were given".

(** * Properties *)

Section Properties.

Variable py_repr : pyval -> string.
Variable GoogleMapsClient : pyval -> option exn.
Variable gmaps_distance_matrix : pyval -> list pyval -> list pyval -> result pyval.
Variable RoutingIndexManager : manager_args -> option exn.
Variable SolveWithParameters : routing_model -> result (option routing_solution).

Local Abbreviation fetch := (fetch_distance_matrix py_repr gmaps_distance_matrix).
Local Abbreviation plan :=
  (plan_routes py_repr GoogleMapsClient gmaps_distance_matrix
               RoutingIndexManager SolveWithParameters).
Local Abbreviation run_solve :=
  (solve py_repr RoutingIndexManager SolveWithParameters).
Local Abbreviation endpoint :=
  (endpoint_fetch_distance_matrix py_repr gmaps_distance_matrix).

(** *** The client's lists only grow *)

Lemma fold_add_origin (os : list pyval) :
  forall c,
    fold_left add_origin os c =
    {| client := client c;
       origins := (origins c ++ os)%list;
       destination := destination c |}.
Proof.
  induction os as [|o os IH]; intros [k og ds]; simpl.
  - now rewrite app_nil_r.
  - rewrite IH. simpl. now rewrite <- app_assoc.
Qed.

Lemma fold_driver_origins (ds : list Person) :
  forall c,
    fold_left (fun c d => add_origin c (address d)) ds c =
    {| client := client c;
       origins := (origins c ++ map address ds)%list;
       destination := destination c |}.
Proof.
  induction ds as [|d ds IH]; intros [k og dst]; simpl.
  - now rewrite app_nil_r.
  - rewrite IH. simpl. now rewrite <- app_assoc.
Qed.

Lemma fold_set_destination (ds : list pyval) :
  forall c,
    fold_left set_destination ds c =
    {| client := client c;
       origins := origins c;
       destination := (destination c ++ ds)%list |}.
Proof.
  induction ds as [|d ds IH]; intros [k og dst]; simpl.
  - now rewrite app_nil_r.
  - rewrite IH. simpl. now rewrite <- app_assoc.
Qed.

Lemma loaded_client_eq (rp : RoutePlanner) (c : GoogleDistanceMatrixClient) :
  loaded_client rp c =
  {| client := client c;
     origins := (origins c ++ map address (drivers rp))%list;
     destination := (destination c ++ destinations rp)%list |}.
Proof.
  unfold loaded_client.
  now rewrite fold_driver_origins, fold_set_destination.
Qed.

(** *** The fetch *)

(** With an origin and a destination set, the fetch calls the service
    once, with the client's lists, whatever the answer is. *)
Lemma fetch_calls_once (c : GoogleDistanceMatrixClient) :
  origins c <> [] -> destination c <> [] ->
  fetch c = ([DistanceMatrixCall (origins c) (destination c)],
             outcome (fetch c)).
Proof.
  intros Ho Hd. unfold fetch_distance_matrix.
  destruct (origins c) as [|o os] eqn:Eo; [contradiction|].
  destruct (destination c) as [|d ds] eqn:Ed; [contradiction|].
  cbn [truthy negb orb].
  destruct (gmaps_distance_matrix (client c) (o :: os) (d :: ds))
    as [response|e]; cbn; [|reflexivity].
  destruct (getitem_key response "status") as [status|e]; cbn; [|reflexivity].
  destruct (eq_str status "OK"); cbn; [|reflexivity].
  now destruct (collect_results _ _ _ _ _).
Qed.

(** Without an origin or without a destination the fetch raises before
    it calls the service. *)
Lemma fetch_unset (c : GoogleDistanceMatrixClient) :
  origins c = [] \/ destination c = [] ->
  fetch c = ([], Raise (ValueError
    "Origins and destination must be set before fetching the distance matrix.")).
Proof.
  unfold fetch_distance_matrix.
  intros [H|H]; rewrite H; [reflexivity|].
  now destruct (origins c).
Qed.

(** *** plan_routes *)

Lemma plan_routes_no_destination (rp : RoutePlanner) :
  destinations rp = [] ->
  plan rp = ([], Raise (ValueError "At least one destination is required.")).
Proof. intros H. unfold plan_routes. now rewrite H. Qed.

Lemma plan_routes_no_driver (rp : RoutePlanner) :
  destinations rp <> [] -> drivers rp = [] ->
  plan rp = ([], Raise (ValueError "At least one driver is required.")).
Proof.
  intros Hd H. unfold plan_routes. rewrite H.
  now destruct (destinations rp).
Qed.

Lemma plan_routes_client_refused (rp : RoutePlanner) (e : exn) :
  destinations rp <> [] -> drivers rp <> [] ->
  GoogleMapsClient (api_key rp) = Some e ->
  plan rp = ([GoogleMapsClientCall (api_key rp)], Raise e).
Proof.
  intros Hd Hv Hk. unfold plan_routes, GoogleDistanceMatrixClient_init.
  destruct (destinations rp); [contradiction|].
  destruct (drivers rp); [contradiction|].
  now rewrite Hk.
Qed.

Lemma plan_routes_run (rp : RoutePlanner) :
  destinations rp <> [] -> drivers rp <> [] ->
  GoogleMapsClient (api_key rp) = None ->
  let c := loaded_client rp {| client := api_key rp; origins := [];
                               destination := [] |} in
  exists e,
    (outcome (fetch c) = Raise e
     \/ (exists dist_matrix, outcome (fetch c) = Ok dist_matrix)
        /\ e = arity_error)
    /\ plan rp =
       ([GoogleMapsClientCall (api_key rp);
         DistanceMatrixCall (map address (drivers rp)) (destinations rp);
         Print ("An error occurred: " ++ exn_str py_repr e)], Ok tt).
Proof.
  intros Hd Hv Hk c.
  assert (Hc : fetch c = ([DistanceMatrixCall (map address (drivers rp))
                                              (destinations rp)],
                          outcome (fetch c))).
  { subst c. rewrite loaded_client_eq. cbn [client origins destination app].
    rewrite fetch_calls_once at 1; cbn [origins destination]; try reflexivity.
    - destruct (drivers rp); [contradiction|discriminate].
    - assumption. }
  unfold plan_routes, GoogleDistanceMatrixClient_init.
  destruct (destinations rp) as [|d ds] eqn:Ed; [contradiction|].
  destruct (drivers rp) as [|v vs] eqn:Ev; [contradiction|].
  rewrite Hk. cbn [truthy negb].
  cbn [bind M_Monad emit ret app]. fold c.
  destruct (fetch c) as [t r]. cbn [outcome snd] in *.
  injection Hc as Ht. subst t.
  destruct r as [dist_matrix|e].
  - exists arity_error. split; [right; split; [now exists dist_matrix|]|];
      reflexivity.
  - exists e. split; [now left|reflexivity].
Qed.

(** Whatever the persons and the libraries are, [plan_routes] never gets
    as far as OR-Tools. *)
Lemma plan_routes_never_reaches_solver (rp : RoutePlanner) :
  forallb (fun ev => negb (is_routing_event ev)) (events (plan rp)) = true.
Proof.
  destruct (destinations rp) as [|d ds] eqn:Ed.
  { now rewrite plan_routes_no_destination. }
  destruct (drivers rp) as [|v vs] eqn:Ev.
  { rewrite plan_routes_no_driver; [reflexivity|congruence|assumption]. }
  destruct (GoogleMapsClient (api_key rp)) as [e|] eqn:Ek.
  { rewrite (plan_routes_client_refused rp e); [reflexivity|congruence..|assumption]. }
  destruct (plan_routes_run rp) as (e & _ & ->); [congruence..|assumption|].
  reflexivity.
Qed.

(** The passengers play no part: two planners with the same key, drivers
    and destinations run alike. *)
Lemma plan_routes_ignores_passengers (rp rp' : RoutePlanner) :
  api_key rp = api_key rp' ->
  drivers rp = drivers rp' ->
  destinations rp = destinations rp' ->
  plan rp = plan rp'.
Proof.
  intros Hk Hv Hd. unfold plan_routes, loaded_client.
  now rewrite Hk, Hv, Hd.
Qed.

(** *** solve on a constructed solver *)

(** Whatever the constructor is given, [solve] stops while it evaluates
    the arguments of [RoutingIndexManager]: at [len] when the matrix has no
    length, at [self.data["num_vehicles"]] otherwise. *)
Lemma solve_of_constructed (dm caps : pyval) :
  run_solve (VRPSolver_init dm caps) =
  ([], match py_len dm with
       | Ok _ => Raise (KeyError (VStr "num_vehicles"))
       | Raise e => Raise e
       end).
Proof. now destruct dm. Qed.

Lemma constructed_by_call (args : list pyval) (self : VRPSolver) :
  VRPSolver_call args = Ok self ->
  exists dm caps, args = [dm; caps] /\ self = VRPSolver_init dm caps.
Proof.
  destruct args as [|dm [|caps [|x rest]]]; cbn; try discriminate.
  intros [= <-]. now exists dm, caps.
Qed.

(** C9, as amended: for every solver the constructor builds, whatever the
    matrix and the capacities are, the data dict holds the keys
    distance_matrix, vehicle_capacities and depot only, and solve raises
    with an empty trace, so OR-Tools is not called and nothing is printed:
    KeyError 'num_vehicles' when the matrix has a length (a string, a list
    or a dict), and the TypeError of len when it has none (None, a bool, an
    int). *)
Theorem solve_raises_before_solver (dm caps : pyval) :
  map fst (data (VRPSolver_init dm caps))
    = ["distance_matrix"; "vehicle_capacities"; "depot"]
  /\ run_solve (VRPSolver_init dm caps)
     = ([], Raise (match dm with
                   | VStr _ | VList _ | VDict _ =>
                       KeyError (VStr "num_vehicles")
                   | VNone | VBool _ | VInt _ =>
                       TypeError ("object of type '" ++ type_name dm
                                    ++ "' has no len()")
                   end)).
Proof. split; [reflexivity|]. now destruct dm. Qed.

(** With a [num_vehicles] entry added to the data by hand, [solve] does
    get to OR-Tools: the manager is asked for as many nodes as the matrix
    has rows, and for one depot, node 0, shared by all the vehicles. *)
Lemma solve_with_num_vehicles (rows : list pyval) (caps : pyval) (n : Z) :
  let self := VRPSolver_init (VList rows) caps in
  let patched :=
    {| distance_matrix := distance_matrix self;
       vehicle_capacities := vehicle_capacities self;
       data := (data self ++ [("num_vehicles", VInt n)])%list;
       manager := None; routing := None; solution := None |} in
  exists rest,
    events (run_solve patched) =
    RoutingManagerCall {| ma_num_nodes := List.length rows;
                          ma_num_vehicles := VInt n;
                          ma_depot := VInt 0 |} :: rest.
Proof.
  cbv zeta. unfold solve.
  cbn [data_item getitem_key data VRPSolver_init app dict_get String.eqb
       Ascii.eqb Bool.eqb py_len lift bind M_Monad emit].
  cbn.
  destruct (RoutingIndexManager _); [now eexists|].
  cbn. destruct (SolveWithParameters _) as [[sol|]|e]; cbn;
    try (now eexists).
  destruct (print_routes _ _ _ _) as [t [z|e]]; now eexists.
Qed.

(** *** What the fetch returns *)

Lemma collect_results_spec (response : pyval) (dest : list pyval) :
  forall (todo : list pyval) (k : nat) (results : list string),
    collect_results py_repr response dest k todo = Ok results ->
    List.length results = List.length todo
    /\ forall i origin,
         nth_error todo i = Some origin ->
         exists rows row distance duration,
           getitem_key response "rows" = Ok rows
           /\ getitem_idx rows (k + i) = Ok row
           /\ element_text row "distance" = Ok distance
           /\ element_text row "duration" = Ok duration
           /\ nth_error results i
              = Some (result_line py_repr origin dest distance duration).
Proof.
  induction todo as [|origin rest IH]; intros k results H.
  - injection H as <-. split; [reflexivity|]. intros [|i] o; discriminate.
  - cbn [collect_results bind result_Monad] in H.
    destruct (getitem_key response "rows") as [rows|] eqn:Erows; [|discriminate].
    destruct (getitem_idx rows k) as [row|] eqn:Erow; [|discriminate].
    destruct (element_text row "distance") as [distance|] eqn:Edist;
      [|discriminate].
    destruct (element_text row "duration") as [duration|] eqn:Edur;
      [|discriminate].
    destruct (collect_results py_repr response dest (S k) rest)
      as [more|] eqn:Emore; [|discriminate].
    injection H as <-.
    destruct (IH (S k) more Emore) as [Hlen Hnth].
    split; [cbn; now rewrite Hlen|].
    intros [|i] o Ho.
    + injection Ho as <-. exists rows, row, distance, duration.
      rewrite Nat.add_0_r. now repeat split.
    + destruct (Hnth i o Ho) as (rows' & row' & d' & u' & H1 & H2 & H3 & H4 & H5).
      exists rows', row', d', u'.
      rewrite <- plus_n_Sm. now repeat split.
Qed.

Lemma text_lines_not_a_matrix (results : list string) :
  results <> [] ->
  is_square_nonneg_matrix (VList (map VStr results)) = false.
Proof. now destruct results. Qed.

(** C8, as amended: when the fetch returns, the service answered OK and
    the result is a list of text lines, one per origin and in the order of
    the origins, each line made of the origin, the destination list and the
    distance and duration texts of the first element of the origin's row;
    the result is not a square matrix of non-negative numbers. *)
Theorem fetch_returns_text_lines
    (c : GoogleDistanceMatrixClient) (results : list string) :
  outcome (fetch c) = Ok results ->
  origins c <> []
  /\ List.length results = List.length (origins c)
  /\ (exists response,
        gmaps_distance_matrix (client c) (origins c) (destination c)
          = Ok response
        /\ getitem_key response "status" = Ok (VStr "OK")
        /\ forall i origin,
             nth_error (origins c) i = Some origin ->
             exists rows row distance duration,
               getitem_key response "rows" = Ok rows
               /\ getitem_idx rows i = Ok row
               /\ element_text row "distance" = Ok distance
               /\ element_text row "duration" = Ok duration
               /\ nth_error results i
                  = Some (result_line py_repr origin (destination c)
                                      distance duration))
  /\ is_square_nonneg_matrix (VList (map VStr results)) = false.
Proof.
  intros H.
  destruct (origins c) as [|o os] eqn:Eo.
  { rewrite fetch_unset in H; [discriminate|now left]. }
  destruct (destination c) as [|d ds] eqn:Ed.
  { rewrite fetch_unset in H; [discriminate|now right]. }
  unfold fetch_distance_matrix in H. rewrite Eo, Ed in H.
  cbn [truthy negb orb] in H.
  destruct (gmaps_distance_matrix (client c) (o :: os) (d :: ds))
    as [response|] eqn:Er; [|discriminate].
  cbn [bind M_Monad emit lift outcome snd] in H.
  destruct (getitem_key response "status") as [status|] eqn:Es; [|discriminate].
  destruct (eq_str status "OK") eqn:Eok; [|discriminate].
  cbn [lift raise] in H.
  destruct (collect_results py_repr response (d :: ds) 0 (o :: os))
    as [lines|] eqn:Ec; [|discriminate].
  cbn in H. injection H as <-.
  destruct (collect_results_spec _ _ _ _ _ Ec) as [Hlen Hnth].
  split; [discriminate|]. split; [assumption|]. split.
  - exists response. split; [reflexivity|]. split.
    + destruct status; try discriminate.
      cbn in Eok. apply String.eqb_eq in Eok. now subst.
    + intros i origin Hi. exact (Hnth i origin Hi).
  - apply text_lines_not_a_matrix. destruct lines; [discriminate|discriminate].
Qed.

(** *** The endpoint *)

Lemma endpoint_state (c : GoogleDistanceMatrixClient)
    (os : list pyval) (d : pyval) :
  snd (endpoint c os d) =
  {| client := client c;
     origins := (origins c ++ os)%list;
     destination := (destination c ++ [d])%list |}.
Proof.
  unfold endpoint_fetch_distance_matrix. cbn [snd].
  now rewrite fold_add_origin.
Qed.

(** The endpoint hands every exception of the fetch back as a body. *)
Lemma endpoint_response (c : GoogleDistanceMatrixClient)
    (os : list pyval) (d : pyval) :
  outcome (fst (endpoint c os d)) =
  Ok (match outcome (fetch (snd (endpoint c os d))) with
      | Ok results => VList (map VStr results)
      | Raise e => VDict [("error", VStr (exn_str py_repr e))]
      end).
Proof.
  unfold endpoint_fetch_distance_matrix. cbn [fst snd].
  now destruct (fetch _) as [t [results|e]].
Qed.

(** C3, as amended: plan_routes lets through only what is raised before
    the fetch, namely its two validation errors and a failure to build the
    maps client; in every other run it returns normally, and an exception
    of the fetch is caught and printed as one line.  The endpoint never
    raises: it answers the fetched lines, or the caught exception's text
    under the key error. *)
Theorem plan_routes_prints_and_returns :
  (forall rp : RoutePlanner,
      (destinations rp = []
       /\ plan rp = ([], Raise (ValueError "At least one destination is required.")))
      \/ (drivers rp = []
          /\ plan rp = ([], Raise (ValueError "At least one driver is required.")))
      \/ (exists e, GoogleMapsClient (api_key rp) = Some e
                    /\ plan rp = ([GoogleMapsClientCall (api_key rp)], Raise e))
      \/ (outcome (plan rp) = Ok tt
          /\ forall e,
               outcome (fetch (loaded_client rp
                                 {| client := api_key rp; origins := [];
                                    destination := [] |})) = Raise e ->
               plan rp =
               ([GoogleMapsClientCall (api_key rp);
                 DistanceMatrixCall (map address (drivers rp)) (destinations rp);
                 Print ("An error occurred: " ++ exn_str py_repr e)], Ok tt)))
  /\ (forall (c : GoogleDistanceMatrixClient) (os : list pyval) (d : pyval),
        outcome (fst (endpoint c os d)) =
        Ok (match outcome (fetch (snd (endpoint c os d))) with
            | Ok results => VList (map VStr results)
            | Raise e => VDict [("error", VStr (exn_str py_repr e))]
            end)).
Proof.
  split; [|exact endpoint_response].
  intros rp.
  destruct (destinations rp) as [|d ds] eqn:Ed.
  { left. split; [reflexivity|]. now apply plan_routes_no_destination. }
  destruct (drivers rp) as [|v vs] eqn:Ev.
  { right; left. split; [reflexivity|].
    apply plan_routes_no_driver; [congruence|assumption]. }
  destruct (GoogleMapsClient (api_key rp)) as [e|] eqn:Ek.
  { right; right; left. exists e. split; [reflexivity|].
    apply plan_routes_client_refused; congruence. }
  right; right; right.
  destruct (plan_routes_run rp) as (e & He & Hp); [congruence..|assumption|].
  rewrite Ed, Ev in Hp. rewrite Hp. split; [reflexivity|].
  intros e' He'. cbv zeta in He.
  destruct He as [He|[[dm Hdm] _]]; congruence.
Qed.

(** C4, as amended: when the capacities add up to less than the number of
    passengers, and a destination and a driver are present and the maps
    client is built, plan_routes makes no capacity check and does not
    fail.  The run is the one of the same planner without any passenger; it
    asks the distance service about the drivers' addresses, prints one
    line, the error it caught, which is the error of the fetch or, when
    the fetch returned, the TypeError of calling VRPSolver with three
    arguments, and returns normally. *)
Theorem plan_routes_has_no_capacity_check (rp : RoutePlanner) (total : Z) :
  sum_capacities (map capacity (drivers rp)) = Some total ->
  (total < Z.of_nat (List.length (passengers rp)))%Z ->
  destinations rp <> [] -> drivers rp <> [] ->
  GoogleMapsClient (api_key rp) = None ->
  plan rp = plan {| persons := persons rp;
                    api_key := api_key rp;
                    destinations := destinations rp;
                    drivers := drivers rp;
                    passengers := [] |}
  /\ exists e,
       (outcome (fetch (loaded_client rp
                          {| client := api_key rp; origins := [];
                             destination := [] |})) = Raise e
        \/ (exists dist_matrix,
              outcome (fetch (loaded_client rp
                                {| client := api_key rp; origins := [];
                                   destination := [] |})) = Ok dist_matrix)
           /\ e = arity_error)
       /\ plan rp =
          ([GoogleMapsClientCall (api_key rp);
            DistanceMatrixCall (map address (drivers rp)) (destinations rp);
            Print ("An error occurred: " ++ exn_str py_repr e)], Ok tt).
Proof.
  intros _ _ Hd Hv Hk. split.
  - now apply plan_routes_ignores_passengers.
  - destruct (plan_routes_run rp Hd Hv Hk) as (e & He & Hp).
    exists e. split; [exact He|exact Hp].
Qed.

Lemma map_address_nil (l : list Person) : map address l = [] <-> l = [].
Proof. destruct l; split; intros H; try reflexivity; discriminate. Qed.

(** C7, as amended: plan_routes fails with the ValueError for a missing
    destination, before any call, exactly when no person is a destination;
    it fails with the ValueError for a missing driver, before any call,
    exactly when some person is a destination and no person is a driver
    that is not a destination. *)
Theorem plan_routes_validation (persons : list Person) (key : pyval) :
  (plan (RoutePlanner_init persons key)
     = ([], Raise (ValueError "At least one destination is required."))
   <-> filter is_destination persons = [])
  /\ (plan (RoutePlanner_init persons key)
        = ([], Raise (ValueError "At least one driver is required."))
      <-> filter is_destination persons <> []
          /\ filter (fun p => is_driving p && negb (is_destination p)) persons
             = []).
Proof.
  set (rp := RoutePlanner_init persons key).
  assert (Hdest : destinations rp = [] <-> filter is_destination persons = [])
    by apply map_address_nil.
  assert (Hdrv : drivers rp =
                 filter (fun p => is_driving p && negb (is_destination p)) persons)
    by reflexivity.
  rewrite <- Hdrv, <- Hdest.
  destruct (destinations rp) as [|d ds] eqn:Ed.
  { rewrite (plan_routes_no_destination rp Ed). intuition congruence. }
  destruct (drivers rp) as [|v vs] eqn:Ev.
  { rewrite (plan_routes_no_driver rp); [|congruence|assumption].
    intuition congruence. }
  assert (Hne : events (plan rp) <> []).
  { destruct (GoogleMapsClient (api_key rp)) as [e|] eqn:Ek.
    - rewrite (plan_routes_client_refused rp e); [easy|congruence..|assumption].
    - destruct (plan_routes_run rp) as (e & _ & ->); [congruence..|assumption|].
      easy. }
  split; split; intros H; try (rewrite H in Hne; now elim Hne);
    intuition congruence.
Qed.

(** C10: the endpoint leaves the module-level client with the request's
    origins and destination appended to what it held; the distance service
    is asked about the accumulated lists; and with a service that answers
    alike for every request, two calls with the same arguments, one after
    the other, return different bodies. *)
Theorem endpoint_accumulates_requests :
  (forall (c : GoogleDistanceMatrixClient) (os : list pyval) (d : pyval),
      snd (endpoint c os d) =
      {| client := client c;
         origins := (origins c ++ os)%list;
         destination := (destination c ++ [d])%list |}
      /\ events (fst (endpoint c os d)) =
         match (origins c ++ os)%list with
         | [] => []
         | _ => [DistanceMatrixCall (origins c ++ os)%list
                                    (destination c ++ [d])%list]
         end)
  /\ (let c0 := {| client := key0; origins := []; destination := [] |} in
      let first := endpoint_fetch_distance_matrix repr_plain gmaps_ok
                     c0 [VStr "A"] (VStr "Z") in
      let second := endpoint_fetch_distance_matrix repr_plain gmaps_ok
                      (snd first) [VStr "A"] (VStr "Z") in
      outcome (fst first) = Ok (VList [VStr "From A to ['Z']: 1 km, 2 mins"])
      /\ outcome (fst second)
         = Ok (VList [VStr "From A to ['Z', 'Z']: 1 km, 2 mins";
                      VStr "From A to ['Z', 'Z']: 1 km, 2 mins"])
      /\ outcome (fst first) <> outcome (fst second)).
Proof.
  split.
  - intros c os d. split; [apply endpoint_state|].
    pose proof (endpoint_state c os d) as Hs.
    unfold endpoint_fetch_distance_matrix in *. cbn [fst snd] in *.
    rewrite Hs.
    destruct (origins c ++ os)%list as [|o rest] eqn:Eo.
    + rewrite fetch_unset; [reflexivity|now left].
    + rewrite fetch_calls_once; cbn [origins destination].
      * now destruct (outcome _).
      * discriminate.
      * now destruct (destination c).
  - cbv zeta. split; [reflexivity|]. split; [reflexivity|]. discriminate.
Qed.

End Properties.

(** * Evaluations at concrete inputs *)

Local Abbreviation plan0 gmaps :=
  (plan_routes repr_plain client_accepts gmaps manager_accepts
               solver_finds_nothing).

(** C3, counter-example: the distance service refuses the request; the
    fetch raises, and plan_routes prints the error and returns normally. *)
Lemma plan_routes_swallows_failure :
  let rp := RoutePlanner_init [ann; office] key0 in
  outcome (fetch_distance_matrix repr_plain gmaps_denied
             (loaded_client rp {| client := key0; origins := [];
                                  destination := [] |}))
    = Raise (ExternalError "ApiError" "REQUEST_DENIED")
  /\ plan0 gmaps_denied rp
     = ([GoogleMapsClientCall key0;
         DistanceMatrixCall [VStr "A"] [VStr "Z"];
         Print "An error occurred: REQUEST_DENIED"], Ok tt).
Proof. split; reflexivity. Qed.

(** C4, counter-example: one driver of capacity 1 and two passengers;
    plan_routes raises nothing, and has called the distance service. *)
Lemma plan_routes_accepts_infeasible_capacity :
  let rp := RoutePlanner_init [ann; bob; cid; office] key0 in
  sum_capacities (map capacity (drivers rp)) = Some 1%Z
  /\ List.length (passengers rp) = 2%nat
  /\ plan0 gmaps_ok rp
     = ([GoogleMapsClientCall key0;
         DistanceMatrixCall [VStr "A"] [VStr "Z"];
         Print "An error occurred: VRPSolver.__init__() takes 3 positional arguments but 4 were given"],
        Ok tt).
Proof. repeat split; reflexivity. Qed.

Lemma plan_routes_has_no_capacity_check_witness :
  let rp := RoutePlanner_init [ann; bob; cid; office] key0 in
  sum_capacities (map capacity (drivers rp)) = Some 1%Z
  /\ (1 < Z.of_nat (List.length (passengers rp)))%Z
  /\ plan0 gmaps_ok rp
     = plan0 gmaps_ok {| persons := persons rp;
                         api_key := api_key rp;
                         destinations := destinations rp;
                         drivers := drivers rp;
                         passengers := [] |}
  /\ exists e,
       (outcome (fetch_distance_matrix repr_plain gmaps_ok
                   (loaded_client rp {| client := key0; origins := [];
                                        destination := [] |})) = Raise e
        \/ (exists dist_matrix,
              outcome (fetch_distance_matrix repr_plain gmaps_ok
                         (loaded_client rp {| client := key0; origins := [];
                                              destination := [] |}))
              = Ok dist_matrix)
           /\ e = arity_error)
       /\ plan0 gmaps_ok rp =
          ([GoogleMapsClientCall key0;
            DistanceMatrixCall [VStr "A"] [VStr "Z"];
            Print ("An error occurred: " ++ exn_str repr_plain e)], Ok tt).
Proof.
  cbv zeta. split; [reflexivity|]. split; [cbn; lia|].
  apply (plan_routes_has_no_capacity_check repr_plain client_accepts gmaps_ok
           manager_accepts solver_finds_nothing
           (RoutePlanner_init [ann; bob; cid; office] key0) 1%Z).
  - reflexivity.
  - cbn. lia.
  - discriminate.
  - discriminate.
  - reflexivity.
Defined.

(** C9, counter-example: a solver built with None for the matrix; solve
    raises the TypeError of len, not KeyError. *)
Lemma solve_without_matrix_raises_TypeError :
  solve repr_plain manager_accepts solver_finds_nothing
        (VRPSolver_init VNone (VList [VInt 5; VInt 5]))
  = ([], Raise (TypeError "object of type 'NoneType' has no len()"))
  /\ solve repr_plain manager_accepts solver_finds_nothing
           (VRPSolver_init VNone (VList [VInt 5; VInt 5]))
     <> ([], Raise (KeyError (VStr "num_vehicles"))).
Proof. split; [reflexivity|discriminate]. Qed.

(** C7, counter-example: with no person at all there is no driver, and
    the error is the one for the missing destination. *)
Lemma plan_routes_no_person :
  drivers (RoutePlanner_init [] key0) = []
  /\ plan0 gmaps_ok (RoutePlanner_init [] key0)
     = ([], Raise (ValueError "At least one destination is required."))
  /\ plan0 gmaps_ok (RoutePlanner_init [] key0)
     <> ([], Raise (ValueError "At least one driver is required.")).
Proof. split; [reflexivity|split; [reflexivity|discriminate]]. Qed.

(** C8, counter-example: two origins that resolve; the fetch returns two
    text lines, which are not a matrix of numbers. *)
Lemma fetch_returns_strings :
  let c := {| client := key0; origins := [VStr "A"; VStr "B"];
              destination := [VStr "Z"] |} in
  outcome (fetch_distance_matrix repr_plain gmaps_ok c)
    = Ok ["From A to ['Z']: 1 km, 2 mins"; "From B to ['Z']: 1 km, 2 mins"]
  /\ is_square_nonneg_matrix
       (VList (map VStr ["From A to ['Z']: 1 km, 2 mins";
                         "From B to ['Z']: 1 km, 2 mins"])) = false.
Proof. split; reflexivity. Qed.

Lemma fetch_returns_text_lines_witness :
  let c := {| client := key0; origins := [VStr "A"; VStr "B"];
              destination := [VStr "Z"] |} in
  let lines := ["From A to ['Z']: 1 km, 2 mins";
                "From B to ['Z']: 1 km, 2 mins"] in
  outcome (fetch_distance_matrix repr_plain gmaps_ok c) = Ok lines
  /\ List.length lines = List.length (origins c)
  /\ is_square_nonneg_matrix (VList (map VStr lines)) = false.
Proof.
  cbv zeta. split; [reflexivity|].
  destruct (fetch_returns_text_lines repr_plain gmaps_ok
              {| client := key0; origins := [VStr "A"; VStr "B"];
                 destination := [VStr "Z"] |}
              ["From A to ['Z']: 1 km, 2 mins"; "From B to ['Z']: 1 km, 2 mins"]
              eq_refl) as (_ & Hlen & _ & Hm).
  exact (conj Hlen Hm).
Defined.


(** * Further properties of the code *)

(** ** Person and RoutePlanner *)

(** X1: the constructor of Person raises exactly when a capacity that
    counts as true is given to a person who is not driving; nothing else is
    checked, so a driver is accepted with any capacity (zero, negative, or
    none), and a non-driver with capacity None or 0. *)
Theorem Person_init_rejects_iff
    (name address capacity : pyval) (is_driving is_destination : bool) :
  (Person_init name address capacity is_driving is_destination
     = Raise (ValueError "Non-driving persons cannot have a capacity.")
   <-> truthy capacity = true /\ is_driving = false)
  /\ (forall p,
        Person_init name address capacity is_driving is_destination = Ok p ->
        p = Build_Person name address is_driving is_destination capacity)
  /\ Person_init name address capacity true is_destination
     = Ok (Build_Person name address true is_destination capacity)
  /\ Person_init name address VNone false is_destination
     = Ok (Build_Person name address false is_destination VNone)
  /\ Person_init name address (VInt 0) false is_destination
     = Ok (Build_Person name address false is_destination (VInt 0)).
Proof.
  unfold Person_init.
  split; [|split; [|split; [|split]]].
  - destruct (truthy capacity), is_driving; cbn; intuition discriminate.
  - intros p. destruct (truthy capacity && negb is_driving); [discriminate|].
    now intros [= <-].
  - now rewrite andb_false_r.
  - reflexivity.
  - reflexivity.
Qed.

Lemma partition_lengths (persons : list Person) :
  (List.length (filter is_destination persons)
   + List.length
       (filter (fun p => is_driving p && negb (is_destination p)) persons)
   + List.length
       (filter (fun p => negb (is_driving p) && negb (is_destination p))
               persons))%nat
  = List.length persons.
Proof.
  induction persons as [|p rest IH]; [reflexivity|].
  cbn [filter]. destruct (is_destination p), (is_driving p); cbn; lia.
Qed.

(** X2: the constructor of RoutePlanner sorts every person into exactly
    one of three lists: the destinations (by address), the drivers, the
    passengers.  Who is flagged as destination is never a driver or a
    passenger, whatever is_driving says. *)
Theorem RoutePlanner_init_partition (persons : list Person) (key : pyval) :
  let rp := RoutePlanner_init persons key in
  (List.length (destinations rp) + List.length (drivers rp)
   + List.length (passengers rp))%nat = List.length persons
  /\ (forall p, In p (drivers rp) <->
                In p persons /\ is_driving p = true /\ is_destination p = false)
  /\ (forall p, In p (passengers rp) <->
                In p persons /\ is_driving p = false /\ is_destination p = false)
  /\ (forall a, In a (destinations rp) <->
                exists p, In p persons /\ is_destination p = true /\ address p = a).
Proof.
  cbv zeta. cbn [destinations drivers passengers RoutePlanner_init].
  split; [|split; [|split]].
  - rewrite length_map. apply partition_lengths.
  - intros p. rewrite filter_In, andb_true_iff, negb_true_iff. tauto.
  - intros p. rewrite filter_In, andb_true_iff, !negb_true_iff. tauto.
  - intros a. rewrite in_map_iff. split.
    + intros (p & Ha & Hp). apply filter_In in Hp. exists p. tauto.
    + intros (p & Hp & Hd & Ha). exists p. split; [assumption|].
      apply filter_In. tauto.
Qed.

Lemma filter_filter_implied {A} (f g : A -> bool) (l : list A) :
  (forall x, f x = true -> g x = true) ->
  filter f (filter g l) = filter f l.
Proof.
  intros Hfg. induction l as [|x l IH]; [reflexivity|].
  cbn [filter]. destruct (g x) eqn:Eg; cbn [filter].
  - now rewrite IH.
  - destruct (f x) eqn:Ef; [|assumption].
    apply Hfg in Ef. congruence.
Qed.

Section Further.

Variable py_repr : pyval -> string.
Variable GoogleMapsClient : pyval -> option exn.
Variable gmaps_distance_matrix : pyval -> list pyval -> list pyval -> result pyval.
Variable RoutingIndexManager : manager_args -> option exn.
Variable SolveWithParameters : routing_model -> result (option routing_solution).

Local Abbreviation fetch := (fetch_distance_matrix py_repr gmaps_distance_matrix).
Local Abbreviation plan :=
  (plan_routes py_repr GoogleMapsClient gmaps_distance_matrix
               RoutingIndexManager SolveWithParameters).
Local Abbreviation run_solve :=
  (solve py_repr RoutingIndexManager SolveWithParameters).
Local Abbreviation endpoint :=
  (endpoint_fetch_distance_matrix py_repr gmaps_distance_matrix).

(** ** plan_routes *)

(** X3: the passengers play no part in plan_routes: with all of them taken
    out of the list of persons, the run is the same, event for event. *)
Theorem plan_routes_without_passengers (persons : list Person) (key : pyval) :
  plan (RoutePlanner_init persons key)
  = plan (RoutePlanner_init
            (filter (fun p => is_driving p || is_destination p) persons) key).
Proof.
  apply plan_routes_ignores_passengers; cbn.
  - reflexivity.
  - symmetry. apply filter_filter_implied.
    intros p. destruct (is_driving p), (is_destination p); easy.
  - f_equal. symmetry. apply filter_filter_implied.
    intros p H. rewrite H. apply orb_true_r.
Qed.

(** X4: whenever plan_routes returns normally it has asked the distance
    service once, about the drivers' addresses and all the destinations,
    and has printed exactly one line, an error: that of the fetch, or, when
    the fetch returned, the TypeError of calling VRPSolver with three
    arguments.  No run plans a route. *)
Theorem plan_routes_return_means_error (rp : RoutePlanner) :
  outcome (plan rp) = Ok tt ->
  exists e,
    events (plan rp) =
      [GoogleMapsClientCall (api_key rp);
       DistanceMatrixCall (map address (drivers rp)) (destinations rp);
       Print ("An error occurred: " ++ exn_str py_repr e)]
    /\ (outcome (fetch (loaded_client rp
                          {| client := api_key rp; origins := [];
                             destination := [] |})) = Raise e
        \/ (exists dist_matrix,
              outcome (fetch (loaded_client rp
                                {| client := api_key rp; origins := [];
                                   destination := [] |})) = Ok dist_matrix)
           /\ e = arity_error).
Proof.
  intros H.
  destruct (destinations rp) as [|d ds] eqn:Ed.
  { rewrite plan_routes_no_destination in H by assumption. discriminate. }
  destruct (drivers rp) as [|v vs] eqn:Ev.
  { rewrite plan_routes_no_driver in H by congruence. discriminate. }
  destruct (GoogleMapsClient (api_key rp)) as [e|] eqn:Ek.
  { rewrite (plan_routes_client_refused _ _ _ _ _ rp e) in H by congruence.
    discriminate. }
  destruct (plan_routes_run py_repr GoogleMapsClient gmaps_distance_matrix
              RoutingIndexManager SolveWithParameters rp)
    as (e & He & Hp); [congruence..|assumption|].
  exists e. rewrite Hp, Ed, Ev. split; [reflexivity|exact He].
Qed.

(** ** fetch_distance_matrix *)

(** X5: the fetch calls the distance service exactly when both an origin
    and a destination are set, and then once, with the client's lists;
    otherwise it raises its ValueError without any call. *)
Theorem fetch_calls_service_iff_set (c : GoogleDistanceMatrixClient) :
  (events (fetch c) = [] <-> origins c = [] \/ destination c = [])
  /\ (origins c = [] \/ destination c = [] <->
      fetch c = ([], Raise (ValueError
        "Origins and destination must be set before fetching the distance matrix.")))
  /\ (events (fetch c) <> [] <->
      events (fetch c) = [DistanceMatrixCall (origins c) (destination c)]).
Proof.
  destruct (origins c) as [|o os] eqn:Eo.
  { rewrite (fetch_unset _ _ c) by now left.
    cbn. intuition discriminate. }
  destruct (destination c) as [|d ds] eqn:Ed.
  { rewrite (fetch_unset _ _ c) by now right.
    cbn. intuition discriminate. }
  rewrite (fetch_calls_once _ _ c) by congruence.
  rewrite Eo, Ed. cbn. intuition discriminate.
Qed.

(** How a fetch with an origin and a destination ends. *)
Lemma fetch_outcome (c : GoogleDistanceMatrixClient) :
  origins c <> [] -> destination c <> [] ->
  outcome (fetch c) =
  match gmaps_distance_matrix (client c) (origins c) (destination c) with
  | Raise e => Raise e
  | Ok response =>
      match getitem_key response "status" with
      | Raise e => Raise e
      | Ok status =>
          if eq_str status "OK"
          then collect_results py_repr response (destination c) 0 (origins c)
          else Raise (Exception ("Error fetching distance matrix: "
                                   ++ py_str py_repr status))
      end
  end.
Proof.
  intros Ho Hd. unfold fetch_distance_matrix.
  destruct (origins c) as [|o os]; [contradiction|].
  destruct (destination c) as [|d ds]; [contradiction|].
  cbn [truthy negb orb].
  destruct (gmaps_distance_matrix (client c) (o :: os) (d :: ds))
    as [response|e]; cbn; [|reflexivity].
  destruct (getitem_key response "status") as [status|e]; cbn; [|reflexivity].
  destruct (eq_str status "OK"); cbn; [|reflexivity].
  now destruct (collect_results _ _ _ _ _).
Qed.

Lemma fetch_run (c : GoogleDistanceMatrixClient) (r : result (list string)) :
  origins c <> [] -> destination c <> [] ->
  outcome (fetch c) = r ->
  fetch c = ([DistanceMatrixCall (origins c) (destination c)], r).
Proof.
  intros Ho Hd <-. now apply fetch_calls_once.
Qed.

Lemma fetch_length (c : GoogleDistanceMatrixClient) (results : list string) :
  outcome (fetch c) = Ok results ->
  List.length results = List.length (origins c).
Proof.
  intros H.
  destruct (origins c) as [|o os] eqn:Eo.
  { rewrite (fetch_unset _ _ c) in H by now left. discriminate. }
  destruct (destination c) as [|d ds] eqn:Ed.
  { rewrite (fetch_unset _ _ c) in H by now right. discriminate. }
  rewrite fetch_outcome in H by congruence.
  destruct (gmaps_distance_matrix _ _ _) as [response|]; [|discriminate].
  destruct (getitem_key response "status") as [status|]; [|discriminate].
  destruct (eq_str status "OK"); [|discriminate].
  rewrite Eo in H.
  now destruct (collect_results_spec _ _ _ _ _ _ H).
Qed.

Lemma eq_str_false (v : pyval) (lit : string) :
  v <> VStr lit -> eq_str v lit = false.
Proof.
  destruct v; cbn; try reflexivity.
  intros H. apply String.eqb_neq. congruence.
Qed.

(** X6: an exception of the distance service comes out of the fetch
    unchanged, after the one call. *)
Theorem fetch_propagates_service_error
    (c : GoogleDistanceMatrixClient) (e : exn) :
  origins c <> [] -> destination c <> [] ->
  gmaps_distance_matrix (client c) (origins c) (destination c) = Raise e ->
  fetch c = ([DistanceMatrixCall (origins c) (destination c)], Raise e).
Proof.
  intros Ho Hd He. apply fetch_run; [assumption..|].
  now rewrite fetch_outcome, He.
Qed.

(** X7: when the answer's status is anything but the string OK, the fetch
    raises Exception with the status in its text and returns no line;
    an answer without a status entry raises KeyError 'status'. *)
Theorem fetch_status_not_ok
    (c : GoogleDistanceMatrixClient) (response : pyval) :
  origins c <> [] -> destination c <> [] ->
  gmaps_distance_matrix (client c) (origins c) (destination c) = Ok response ->
  (forall status,
      getitem_key response "status" = Ok status -> status <> VStr "OK" ->
      fetch c = ([DistanceMatrixCall (origins c) (destination c)],
                 Raise (Exception ("Error fetching distance matrix: "
                                     ++ py_str py_repr status))))
  /\ (forall items,
        response = VDict items -> dict_get items "status" = None ->
        fetch c = ([DistanceMatrixCall (origins c) (destination c)],
                   Raise (KeyError (VStr "status")))).
Proof.
  intros Ho Hd Hr. split.
  - intros status Hs Hne. apply fetch_run; [assumption..|].
    now rewrite fetch_outcome, Hr, Hs, eq_str_false.
  - intros items -> Hs. apply fetch_run; [assumption..|].
    rewrite fetch_outcome, Hr by assumption. cbn. now rewrite Hs.
Qed.

Lemma collect_results_complete (response rows : pyval) (dest : list pyval) :
  getitem_key response "rows" = Ok rows ->
  forall (todo : list pyval) (k : nat),
    (forall i, (i < List.length todo)%nat ->
       exists row distance duration,
         getitem_idx rows (k + i) = Ok row
         /\ element_text row "distance" = Ok distance
         /\ element_text row "duration" = Ok duration) ->
    exists results, collect_results py_repr response dest k todo = Ok results.
Proof.
  intros Hrows. induction todo as [|origin rest IH]; intros k H.
  - now exists [].
  - destruct (H 0%nat) as (row & d & u & H1 & H2 & H3); [cbn; lia|].
    rewrite Nat.add_0_r in H1.
    destruct (IH (S k)) as [more Hmore].
    { intros i Hi. destruct (H (S i)) as (r' & d' & u' & G1 & G2 & G3);
        [cbn; lia|].
      rewrite <- plus_n_Sm in G1. now exists r', d', u'. }
    exists (result_line py_repr origin dest d u :: more).
    cbn [collect_results bind result_Monad].
    now rewrite Hrows, H1, H2, H3, Hmore.
Qed.

(** X8: the fetch returns, with one line per origin, as soon as the answer
    has the status OK and, for every origin's index, a row whose first
    element carries a distance text and a duration text. *)
Theorem fetch_succeeds_when_rows_complete
    (c : GoogleDistanceMatrixClient) (response rows : pyval) :
  origins c <> [] -> destination c <> [] ->
  gmaps_distance_matrix (client c) (origins c) (destination c) = Ok response ->
  getitem_key response "status" = Ok (VStr "OK") ->
  getitem_key response "rows" = Ok rows ->
  (forall i, (i < List.length (origins c))%nat ->
     exists row distance duration,
       getitem_idx rows i = Ok row
       /\ element_text row "distance" = Ok distance
       /\ element_text row "duration" = Ok duration) ->
  exists results,
    fetch c = ([DistanceMatrixCall (origins c) (destination c)], Ok results)
    /\ List.length results = List.length (origins c).
Proof.
  intros Ho Hd Hr Hs Hrows Hall.
  destruct (collect_results_complete response rows (destination c) Hrows
              (origins c) 0 Hall) as [results Hres].
  assert (Hout : outcome (fetch c) = Ok results).
  { now rewrite fetch_outcome, Hr, Hs. }
  exists results. split; [now apply fetch_run|now apply fetch_length].
Qed.

Lemma collect_results_short (response : pyval) (rs : list pyval)
    (dest : list pyval) :
  getitem_key response "rows" = Ok (VList rs) ->
  Forall (fun row => exists distance duration,
            element_text row "distance" = Ok distance
            /\ element_text row "duration" = Ok duration) rs ->
  forall (todo : list pyval) (k : nat),
    (k <= List.length rs)%nat ->
    (List.length rs < k + List.length todo)%nat ->
    collect_results py_repr response dest k todo
    = Raise (IndexError "list index out of range").
Proof.
  intros Hrows Hgood. induction todo as [|origin rest IH]; intros k Hk Hlen.
  - cbn in Hlen. lia.
  - cbn [collect_results bind result_Monad]. rewrite Hrows.
    cbn [getitem_idx].
    destruct (nth_error rs k) as [row|] eqn:Erow; [|reflexivity].
    assert (Hin : In row rs) by (eapply nth_error_In; eassumption).
    rewrite Forall_forall in Hgood.
    destruct (Hgood row Hin) as (d & u & Hd & Hu). rewrite Hd, Hu.
    assert (Hlt : (k < List.length rs)%nat).
    { apply nth_error_Some. congruence. }
    rewrite IH; [reflexivity|lia|cbn in Hlen; lia].
Qed.

(** X9: an OK answer with fewer rows than there are origins makes the
    fetch raise IndexError, even when every row it has is complete: the
    lines built so far are lost. *)
Theorem fetch_short_answer_raises
    (c : GoogleDistanceMatrixClient) (response : pyval) (rs : list pyval) :
  destination c <> [] ->
  gmaps_distance_matrix (client c) (origins c) (destination c) = Ok response ->
  getitem_key response "status" = Ok (VStr "OK") ->
  getitem_key response "rows" = Ok (VList rs) ->
  Forall (fun row => exists distance duration,
            element_text row "distance" = Ok distance
            /\ element_text row "duration" = Ok duration) rs ->
  (List.length rs < List.length (origins c))%nat ->
  fetch c = ([DistanceMatrixCall (origins c) (destination c)],
             Raise (IndexError "list index out of range")).
Proof.
  intros Hd Hr Hs Hrows Hgood Hlen.
  assert (Ho : origins c <> []).
  { intros E. rewrite E in Hlen. cbn in Hlen. lia. }
  apply fetch_run; [assumption..|].
  rewrite fetch_outcome, Hr, Hs by assumption. cbn [eq_str String.eqb].
  replace (eq_str (VStr "OK") "OK") with true by reflexivity.
  apply (collect_results_short response rs); try assumption; lia.
Qed.

(** ** The endpoint *)

(** X10: [k] requests with the same arguments leave the module-level
    client with [k] copies of the request's origins and [k] copies of its
    destination after what it held before. *)
Theorem endpoint_after_requests
    (k : nat) (c : GoogleDistanceMatrixClient) (os : list pyval) (d : pyval) :
  after_requests py_repr gmaps_distance_matrix k c os d =
  {| client := client c;
     origins := (origins c ++ List.concat (repeat os k))%list;
     destination := (destination c ++ repeat d k)%list |}.
Proof.
  revert c. induction k as [|k IH]; intros c.
  - cbn. rewrite !app_nil_r. now destruct c.
  - cbn [after_requests repeat List.concat]. rewrite IH, endpoint_state.
    cbn [client origins destination].
    now rewrite <- !app_assoc.
Qed.

(** X11: a request without origins to a client that holds none is
    answered with the error body, the distance service is not called, and
    the request's destination stays in the client all the same. *)
Theorem endpoint_empty_request (c : GoogleDistanceMatrixClient) (d : pyval) :
  origins c = [] ->
  endpoint c [] d =
  (([], Ok (VDict [("error", VStr
      "Origins and destination must be set before fetching the distance matrix.")])),
   {| client := client c;
      origins := [];
      destination := (destination c ++ [d])%list |}).
Proof.
  intros Ho. unfold endpoint_fetch_distance_matrix. cbn [fold_left].
  rewrite (fetch_unset _ _ (set_destination c d)) by (now left).
  cbn. unfold set_destination. now rewrite Ho.
Qed.

(** X12: a successful body has one line for every origin the client has
    ever been given, not one per origin of the request. *)
Theorem endpoint_body_counts_all_origins
    (c : GoogleDistanceMatrixClient) (os : list pyval) (d : pyval)
    (body : list pyval) :
  outcome (fst (endpoint c os d)) = Ok (VList body) ->
  List.length body = (List.length (origins c) + List.length os)%nat.
Proof.
  rewrite endpoint_response.
  destruct (outcome (fetch (snd (endpoint c os d)))) as [results|e] eqn:Ef;
    [|discriminate].
  intros [= <-]. rewrite length_map, (fetch_length _ _ Ef), endpoint_state.
  cbn [origins]. apply length_app.
Qed.

(** ** VRPSolver *)

(** X13: the data of a constructed solver gives back the matrix and the
    capacities it was built from, and 0 for the depot; every other key
    raises KeyError. *)
Theorem constructed_data_lookup (dm caps : pyval) :
  data_item (VRPSolver_init dm caps) "distance_matrix" = Ok dm
  /\ data_item (VRPSolver_init dm caps) "vehicle_capacities" = Ok caps
  /\ data_item (VRPSolver_init dm caps) "depot" = Ok (VInt 0)
  /\ forall key,
       key <> "distance_matrix" -> key <> "vehicle_capacities" ->
       key <> "depot" ->
       data_item (VRPSolver_init dm caps) key = Raise (KeyError (VStr key)).
Proof.
  repeat split. intros key H1 H2 H3.
  unfold data_item, getitem_key, VRPSolver_init. cbn [data dict_get].
  rewrite (proj2 (String.eqb_neq "distance_matrix" key)) by congruence.
  rewrite (proj2 (String.eqb_neq "vehicle_capacities" key)) by congruence.
  now rewrite (proj2 (String.eqb_neq "depot" key)) by congruence.
Qed.

(** The arcs a route is made of: each index with the one that follows. *)
Lemma walk_route_distance (sol : routing_solution) (vehicle_id : nat)
    (last : Z) :
  forall path,
    snd (walk_route py_repr sol vehicle_id path last) =
    fold_right Z.add 0%Z
      (map (fun arc => GetArcCostForVehicle sol (fst arc) (snd arc) vehicle_id)
           (combine path (tl path ++ [last]))).
Proof.
  induction path as [|index rest IH]; [reflexivity|].
  cbn [walk_route]. destruct (walk_route py_repr sol vehicle_id rest last)
    as [out dist] eqn:Ew.
  cbn [snd] in *. rewrite IH.
  destruct rest as [|n rest']; reflexivity.
Qed.

(** X14: the distance print_solution reports for a route is the sum of
    the arc costs along it, each index paired with the next and the last
    one with the end index; a route with all arc costs non-negative has a
    non-negative distance. *)
Theorem route_distance_is_sum_of_arcs
    (sol : routing_solution) (vehicle_id : nat) :
  snd (plan_output py_repr sol vehicle_id) =
    fold_right Z.add 0%Z
      (map (fun arc => GetArcCostForVehicle sol (fst arc) (snd arc) vehicle_id)
           (combine (sol_path sol vehicle_id)
                    (tl (sol_path sol vehicle_id) ++ [sol_end sol vehicle_id])))
  /\ ((forall i j, (0 <= GetArcCostForVehicle sol i j vehicle_id)%Z) ->
      (0 <= snd (plan_output py_repr sol vehicle_id))%Z).
Proof.
  assert (E : snd (plan_output py_repr sol vehicle_id) =
              snd (walk_route py_repr sol vehicle_id (sol_path sol vehicle_id)
                              (sol_end sol vehicle_id))).
  { unfold plan_output. now destruct (walk_route _ _ _ _ _). }
  rewrite E, walk_route_distance. split; [reflexivity|].
  intros Hpos.
  induction (combine _ _) as [|arc arcs IH]; cbn; [lia|].
  specialize (Hpos (fst arc) (snd arc)). lia.
Qed.



(** What [solve] hands to OR-Tools for a solver whose data is complete. *)
Lemma solve_head (self : VRPSolver) (dm nv depot : pyval) (n : nat) :
  data_item self "distance_matrix" = Ok dm ->
  py_len dm = Ok n ->
  data_item self "num_vehicles" = Ok nv ->
  data_item self "depot" = Ok depot ->
  run_solve self =
  let args := {| ma_num_nodes := n; ma_num_vehicles := nv;
                 ma_depot := depot |} in
  match RoutingIndexManager args with
  | Some e => ([RoutingManagerCall args], Raise e)
  | None =>
      match data_item self "vehicle_capacities" with
      | Raise e => ([RoutingManagerCall args], Raise e)
      | Ok capacities =>
          let model := {| rm_manager := args; rm_arc_cost_matrix := dm;
                          rm_demand := 1; rm_capacity_slack := 0;
                          rm_vehicle_capacities := capacities;
                          rm_start_cumul_to_zero := true |} in
          let self' := {| distance_matrix := distance_matrix self;
                          vehicle_capacities := vehicle_capacities self;
                          data := data self;
                          manager := Some args;
                          routing := Some model;
                          solution :=
                            match SolveWithParameters model with
                            | Ok found => found
                            | Raise _ => None
                            end |} in
          match SolveWithParameters model with
          | Raise e => ([RoutingManagerCall args; RoutingSolveCall model],
                        Raise e)
          | Ok None => ([RoutingManagerCall args; RoutingSolveCall model],
                        Ok self')
          | Ok (Some sol) =>
              ((RoutingManagerCall args :: RoutingSolveCall model
                 :: events (print_solution py_repr self' sol))%list,
               match outcome (print_solution py_repr self' sol) with
               | Ok _ => Ok self'
               | Raise e => Raise e
               end)
          end
      end
  end.
Proof.
  intros Hdm Hlen Hnv Hdepot. unfold solve.
  rewrite Hdm. cbn [lift bind M_Monad]. rewrite Hlen.
  cbn [lift bind M_Monad]. rewrite Hnv. cbn [lift bind M_Monad].
  rewrite Hdepot. cbn [lift bind M_Monad emit app].
  destruct (RoutingIndexManager _) as [e|]; [reflexivity|].
  destruct (data_item self "vehicle_capacities") as [capacities|e];
    [|reflexivity].
  cbn [lift bind M_Monad emit app].
  destruct (SolveWithParameters _) as [[sol|]|e]; [|reflexivity|reflexivity].
  cbn [lift bind M_Monad emit app].
  destruct (print_solution py_repr _ sol) as [t [u|e]]; cbn;
    rewrite ?app_nil_r; reflexivity.
Qed.

(** X16: with complete data, when the manager is built and OR-Tools finds
    no solution, solve ends silently: it has called the manager and the
    solver once each, prints nothing, raises nothing, and leaves the
    solution unset.  The model it hands over has demand 1 for every index,
    no slack, the capacities of the data and cumuls starting at zero. *)
Theorem solve_silent_without_solution
    (self : VRPSolver) (dm nv depot capacities : pyval) (n : nat) :
  data_item self "distance_matrix" = Ok dm ->
  py_len dm = Ok n ->
  data_item self "num_vehicles" = Ok nv ->
  data_item self "depot" = Ok depot ->
  data_item self "vehicle_capacities" = Ok capacities ->
  let args := {| ma_num_nodes := n; ma_num_vehicles := nv;
                 ma_depot := depot |} in
  let model := {| rm_manager := args; rm_arc_cost_matrix := dm;
                  rm_demand := 1; rm_capacity_slack := 0;
                  rm_vehicle_capacities := capacities;
                  rm_start_cumul_to_zero := true |} in
  RoutingIndexManager args = None ->
  SolveWithParameters model = Ok None ->
  run_solve self =
  ([RoutingManagerCall args; RoutingSolveCall model],
   Ok {| distance_matrix := distance_matrix self;
         vehicle_capacities := vehicle_capacities self;
         data := data self;
         manager := Some args;
         routing := Some model;
         solution := None |}).
Proof.
  intros Hdm Hlen Hnv Hdepot Hcaps args model Hm Hs.
  rewrite (solve_head self dm nv depot n) by assumption.
  cbv zeta. fold args. rewrite Hm, Hcaps. fold model. now rewrite Hs.
Qed.

(** X17: when the manager rejects its arguments, solve raises that error
    after the one call to the manager; the solver is not called and
    nothing is printed. *)
Theorem solve_manager_rejected
    (self : VRPSolver) (dm nv depot : pyval) (n : nat) (e : exn) :
  data_item self "distance_matrix" = Ok dm ->
  py_len dm = Ok n ->
  data_item self "num_vehicles" = Ok nv ->
  data_item self "depot" = Ok depot ->
  RoutingIndexManager {| ma_num_nodes := n; ma_num_vehicles := nv;
                         ma_depot := depot |} = Some e ->
  run_solve self =
  ([RoutingManagerCall {| ma_num_nodes := n; ma_num_vehicles := nv;
                          ma_depot := depot |}], Raise e).
Proof.
  intros Hdm Hlen Hnv Hdepot Hm.
  rewrite (solve_head self dm nv depot n) by assumption.
  cbv zeta. now rewrite Hm.
Qed.


(** ** The script *)

Lemma print_all_spec (lines : list string) :
  print_all lines = (map Print lines, Ok tt).
Proof.
  induction lines as [|line rest IH]; [reflexivity|].
  cbn [print_all bind M_Monad emit]. now rewrite IH.
Qed.

(** X19: run as a script, the module never reaches its last line and never
    solves anything.  It stops with the error of the maps client's
    constructor; or, when the fetch fails, after printing that error, with
    NameError for dist_matrix, which was never bound; or, when the fetch
    returns, after printing its lines, with AttributeError for set_driver,
    which VRPSolver does not have. *)
Theorem main_never_finishes (env_key : pyval) :
  let c := {| client := env_key; origins := main_origins;
              destination := [main_destination] |} in
  let run := main py_repr GoogleMapsClient gmaps_distance_matrix env_key in
  ((exists e, GoogleMapsClient env_key = Some e
              /\ run = ([GoogleMapsClientCall env_key], Uncaught e))
   \/ (exists e, outcome (fetch c) = Raise e
                 /\ run = ([GoogleMapsClientCall env_key;
                            DistanceMatrixCall main_origins [main_destination];
                            Print ("An error occurred: " ++ exn_str py_repr e)],
                           UncaughtNameError "dist_matrix"))
   \/ (exists lines, outcome (fetch c) = Ok lines
                     /\ run = ((GoogleMapsClientCall env_key
                                 :: DistanceMatrixCall main_origins
                                                       [main_destination]
                                 :: map Print lines)%list,
                               UncaughtAttributeError "VRPSolver" "set_driver")))
  /\ snd run <> Finished
  /\ forallb (fun ev => negb (is_routing_event ev)) (fst run) = true.
Proof.
  cbv zeta.
  set (c := {| client := env_key; origins := main_origins;
               destination := [main_destination] |}).
  assert (Hc : fetch c = ([DistanceMatrixCall main_origins [main_destination]],
                          outcome (fetch c))).
  { now rewrite (fetch_calls_once _ _ c) at 1. }
  unfold main, GoogleDistanceMatrixClient_init.
  destruct (GoogleMapsClient env_key) as [e|] eqn:Ek.
  { cbn. split; [left; now exists e|]. split; [discriminate|reflexivity]. }
  cbn [bind M_Monad emit ret app].
  change (set_destination (fold_left add_origin main_origins
            {| client := env_key; origins := []; destination := [] |})
            main_destination) with c.
  destruct (fetch c) as [t r]. cbn [outcome snd] in *.
  injection Hc as ->.
  destruct r as [lines|e].
  - cbn [bind M_Monad]. rewrite print_all_spec.
    cbn [bind M_Monad ret try_except app VRPSolver_call fst snd].
    rewrite app_nil_r.
    split; [right; right; now exists lines|]. split; [discriminate|].
    cbn. induction lines; [reflexivity|assumption].
  - cbn. split; [right; left; now exists e|].
    split; [discriminate|reflexivity].
Qed.

(** ** Building the client, looking up a user *)

(** X20: set_destination adds to the destinations and replaces nothing;
    origins and destinations are kept apart and in the order given, so
    adding the origins first or the destinations first builds the same
    client. *)
Theorem client_building_commutes
    (c : GoogleDistanceMatrixClient) (os ds : list pyval) :
  fold_left set_destination ds (fold_left add_origin os c)
  = {| client := client c;
       origins := (origins c ++ os)%list;
       destination := (destination c ++ ds)%list |}
  /\ fold_left add_origin os (fold_left set_destination ds c)
     = fold_left set_destination ds (fold_left add_origin os c).
Proof.
  rewrite !fold_set_destination, !fold_add_origin. cbn. now split.
Qed.

(** X21: the user endpoint never answers with an empty or otherwise false
    body: what the store returns is passed on when it counts as true, and
    replaced by the error body when it does not (no row found); an
    exception of the store is not caught. *)
Theorem endpoint_get_user_body
    (supabase_select_user : string -> result pyval) (email : string) :
  (forall body, endpoint_get_user supabase_select_user email = Ok body ->
                truthy body = true)
  /\ (forall user, supabase_select_user email = Ok user ->
        endpoint_get_user supabase_select_user email =
        Ok (if truthy user then user
            else VDict [("error", VStr "User not found")]))
  /\ (forall e, supabase_select_user email = Raise e ->
        endpoint_get_user supabase_select_user email = Raise e)
  /\ endpoint_get_user (fun _ => Ok (VList [])) email
     = Ok (VDict [("error", VStr "User not found")]).
Proof.
  unfold endpoint_get_user, SupabaseClient_get_user. cbn [bind result_Monad].
  split; [|split; [|split]].
  - intros body. destruct (supabase_select_user email) as [user|e];
      [|discriminate].
    destruct (truthy user) eqn:Et; intros [= <-]; [assumption|reflexivity].
  - intros user ->. now destruct (truthy user).
  - now intros e ->.
  - reflexivity.
Qed.

End Further.

(** ** Instances at concrete inputs *)

Lemma plan_routes_return_means_error_witness :
  exists e,
    events (plan0 gmaps_ok (RoutePlanner_init [ann; office] key0)) =
      [GoogleMapsClientCall key0;
       DistanceMatrixCall [VStr "A"] [VStr "Z"];
       Print ("An error occurred: " ++ exn_str repr_plain e)]
    /\ (outcome (fetch_distance_matrix repr_plain gmaps_ok
                   {| client := key0; origins := [VStr "A"];
                      destination := [VStr "Z"] |}) = Raise e
        \/ (exists dist_matrix,
              outcome (fetch_distance_matrix repr_plain gmaps_ok
                         {| client := key0; origins := [VStr "A"];
                            destination := [VStr "Z"] |}) = Ok dist_matrix)
           /\ e = arity_error).
Proof.
  apply (plan_routes_return_means_error repr_plain client_accepts gmaps_ok
           manager_accepts solver_finds_nothing
           (RoutePlanner_init [ann; office] key0)).
  reflexivity.
Defined.

Lemma fetch_propagates_service_error_witness :
  fetch_distance_matrix repr_plain gmaps_denied
    {| client := key0; origins := [VStr "A"]; destination := [VStr "Z"] |}
  = ([DistanceMatrixCall [VStr "A"] [VStr "Z"]],
     Raise (ExternalError "ApiError" "REQUEST_DENIED")).
Proof.
  apply (fetch_propagates_service_error repr_plain gmaps_denied
           {| client := key0; origins := [VStr "A"];
              destination := [VStr "Z"] |}).
  - discriminate.
  - discriminate.
  - reflexivity.
Defined.

Lemma fetch_status_not_ok_witness :
  fetch_distance_matrix repr_plain gmaps_invalid
    {| client := key0; origins := [VStr "A"]; destination := [VStr "Z"] |}
  = ([DistanceMatrixCall [VStr "A"] [VStr "Z"]],
     Raise (Exception "Error fetching distance matrix: INVALID_REQUEST")).
Proof.
  refine (proj1 (fetch_status_not_ok repr_plain gmaps_invalid
                   {| client := key0; origins := [VStr "A"];
                      destination := [VStr "Z"] |}
                   (VDict [("rows", VList []);
                           ("status", VStr "INVALID_REQUEST")])
                   _ _ eq_refl)
                (VStr "INVALID_REQUEST") eq_refl _); discriminate.
Defined.

Lemma fetch_succeeds_when_rows_complete_witness :
  exists results,
    fetch_distance_matrix repr_plain gmaps_ok
      {| client := key0; origins := [VStr "A"; VStr "B"];
         destination := [VStr "Z"] |}
    = ([DistanceMatrixCall [VStr "A"; VStr "B"] [VStr "Z"]], Ok results)
    /\ List.length results = 2%nat.
Proof.
  apply (fetch_succeeds_when_rows_complete repr_plain gmaps_ok
           {| client := key0; origins := [VStr "A"; VStr "B"];
              destination := [VStr "Z"] |}
           (VDict [("rows", VList [row_1km; row_1km]); ("status", VStr "OK")])
           (VList [row_1km; row_1km])).
  - discriminate.
  - discriminate.
  - reflexivity.
  - reflexivity.
  - reflexivity.
  - intros [|[|i]] Hi.
    + now exists row_1km, (VStr "1 km"), (VStr "2 mins").
    + now exists row_1km, (VStr "1 km"), (VStr "2 mins").
    + cbn in Hi. lia.
Defined.

Lemma fetch_short_answer_raises_witness :
  fetch_distance_matrix repr_plain gmaps_one_row
    {| client := key0; origins := [VStr "A"; VStr "B"];
       destination := [VStr "Z"] |}
  = ([DistanceMatrixCall [VStr "A"; VStr "B"] [VStr "Z"]],
     Raise (IndexError "list index out of range")).
Proof.
  apply (fetch_short_answer_raises repr_plain gmaps_one_row
           {| client := key0; origins := [VStr "A"; VStr "B"];
              destination := [VStr "Z"] |}
           (VDict [("rows", VList [row_1km]); ("status", VStr "OK")])
           [row_1km]).
  - discriminate.
  - reflexivity.
  - reflexivity.
  - reflexivity.
  - constructor; [|constructor].
    now exists (VStr "1 km"), (VStr "2 mins").
  - cbn. lia.
Defined.

Lemma endpoint_empty_request_witness :
  endpoint_fetch_distance_matrix repr_plain gmaps_ok
    {| client := key0; origins := []; destination := [VStr "Y"] |}
    [] (VStr "Z")
  = (([], Ok (VDict [("error", VStr
        "Origins and destination must be set before fetching the distance matrix.")])),
     {| client := key0; origins := [];
        destination := [VStr "Y"; VStr "Z"] |}).
Proof.
  apply (endpoint_empty_request repr_plain gmaps_ok
           {| client := key0; origins := []; destination := [VStr "Y"] |}
           (VStr "Z")).
  reflexivity.
Defined.

Lemma endpoint_body_counts_all_origins_witness :
  List.length [VStr "From A to ['Y', 'Z']: 1 km, 2 mins";
               VStr "From B to ['Y', 'Z']: 1 km, 2 mins"] = 2%nat.
Proof.
  apply (endpoint_body_counts_all_origins repr_plain gmaps_ok
           {| client := key0; origins := [VStr "A"];
              destination := [VStr "Y"] |}
           [VStr "B"] (VStr "Z")).
  reflexivity.
Defined.


Lemma solve_silent_without_solution_witness :
  solve repr_plain manager_accepts solver_finds_nothing completed_solver =
  (let args := {| ma_num_nodes := 3; ma_num_vehicles := VInt 2;
                  ma_depot := VInt 0 |} in
   let model := {| rm_manager := args;
                   rm_arc_cost_matrix := VList [VList []; VList []; VList []];
                   rm_demand := 1; rm_capacity_slack := 0;
                   rm_vehicle_capacities := VList [VInt 1; VInt 1];
                   rm_start_cumul_to_zero := true |} in
   ([RoutingManagerCall args; RoutingSolveCall model],
    Ok {| distance_matrix := distance_matrix completed_solver;
          vehicle_capacities := vehicle_capacities completed_solver;
          data := data completed_solver;
          manager := Some args;
          routing := Some model;
          solution := None |})).
Proof.
  apply (solve_silent_without_solution repr_plain manager_accepts
           solver_finds_nothing completed_solver
           (VList [VList []; VList []; VList []]) (VInt 2) (VInt 0)
           (VList [VInt 1; VInt 1]) 3); reflexivity.
Defined.

Lemma solve_manager_rejected_witness :
  solve repr_plain manager_rejects solver_finds_nothing completed_solver =
  ([RoutingManagerCall {| ma_num_nodes := 3; ma_num_vehicles := VInt 2;
                          ma_depot := VInt 0 |}],
   Raise (ExternalError "TypeError" "Wrong number or type of arguments")).
Proof.
  apply (solve_manager_rejected repr_plain manager_rejects
           solver_finds_nothing completed_solver
           (VList [VList []; VList []; VList []]) (VInt 2) (VInt 0) 3);
    reflexivity.
Defined.

